(** * py-mcsv: field descriptions, the canonical registry and the row writer

    A shallow embedding of [mcsv/field_descriptions.py] and of the row
    mapping of [mcsv/writer.py].

    - A Python reference that may hold [None] is an [option].
    - A [TextIO] destination is the text written to it so far.
    - A call that may raise returns an [Outcome]; [render] also returns the
      destination, because the text written before an exception stays
      written.
    - Class attributes ([X.INSTANCE]) live in a store keyed by class, which
      the module-level assignments update one after the other. *)

From stdpp Require Import base option list strings countable gmap.

Local Open Scope Z_scope.

(** ** Python outcomes *)

(** The only exception the embedded code raises by itself: an attribute
    looked up on an object that lacks it (here always on [None]). *)
Inductive PyError :=
| AttributeError (attribute : string).

Inductive Outcome (A : Type) :=
| Returned (a : A)
| Raised (e : PyError).
Arguments Returned {A} a.
Arguments Raised {A} e.

#[global] Instance Outcome_ret : MRet Outcome := λ A a, Returned a.

#[global] Instance Outcome_bind : MBind Outcome := λ A B k m,
  match m with
  | Returned a => k a
  | Raised e => Raised e
  end.

Definition is_Returned {A} (m : Outcome A) : Prop :=
  ∃ a, m = Returned a.

(** ** [mcsv.util] *)

(** The destination of a [render]: the text written to it so far. *)
Definition TextIO := string.

(** [out.write(s)]. *)
Definition write (out : TextIO) (s : string) : TextIO := out +:+ s.

(** [sep.join(strings)]. *)
Fixpoint join (sep : string) (strings : list string) : string :=
  match strings with
  | [] => ""
  | [s] => s
  | s :: rest => s +:+ sep +:+ join sep rest
  end.

Module util.

(** Modelled from the spec: [mcsv.util.render] is not among the sources.
    The notation grammar is [<type-name>/<param1>/<param2>/...], "empty
    optional segments are written as zero-length strings between
    separators": the arguments are written in order, separated by "/".
    The spec describes no escaping of the arguments, and none is
    modelled. *)
Definition render (out : TextIO) (args : list string) : TextIO :=
  write out (join "/" args).

(** Modelled from the spec: [mcsv.util.none_to_empty] is not among the
    sources. "An absent optional parameter is written as an empty
    segment". *)
Definition none_to_empty (value : option string) : string :=
  match value with
  | None => ""
  | Some s => s
  end.

End util.

(** ** [mcsv.field_description.DataType] *)

(** Modelled from the spec: the enumeration [DataType] is declared in
    [mcsv/field_description.py], which is not among the sources. "DataType
    — one of: BOOLEAN, INTEGER, FLOAT, DECIMAL, CURRENCY_INTEGER,
    CURRENCY_DECIMAL, PERCENTAGE_FLOAT, PERCENTAGE_DECIMAL, DATE, DATETIME,
    TEXT." *)
Inductive DataType :=
| BOOLEAN
| INTEGER
| FLOAT
| DECIMAL
| CURRENCY_INTEGER
| CURRENCY_DECIMAL
| PERCENTAGE_FLOAT
| PERCENTAGE_DECIMAL
| DATE
| DATETIME
| TEXT.

#[global] Instance DataType_eq_dec : EqDecision DataType.
Proof. solve_decision. Defined.

Definition DataType_to_nat (dt : DataType) : nat :=
  match dt with
  | BOOLEAN => 0 | INTEGER => 1 | FLOAT => 2 | DECIMAL => 3
  | CURRENCY_INTEGER => 4 | CURRENCY_DECIMAL => 5
  | PERCENTAGE_FLOAT => 6 | PERCENTAGE_DECIMAL => 7
  | DATE => 8 | DATETIME => 9 | TEXT => 10
  end%nat.

Definition DataType_of_nat (n : nat) : option DataType :=
  match n with
  | 0 => Some BOOLEAN | 1 => Some INTEGER | 2 => Some FLOAT
  | 3 => Some DECIMAL | 4 => Some CURRENCY_INTEGER
  | 5 => Some CURRENCY_DECIMAL | 6 => Some PERCENTAGE_FLOAT
  | 7 => Some PERCENTAGE_DECIMAL | 8 => Some DATE | 9 => Some DATETIME
  | 10 => Some TEXT | _ => None
  end%nat.

#[global] Instance DataType_countable : Countable DataType.
Proof.
  refine (inj_countable DataType_to_nat DataType_of_nat _).
  by intros [].
Defined.

(** What [data_type_to_field_description] may be handed as a dictionary
    key: one of the eleven members, or any other hashable value (a member
    of a later version of the enumeration, a string, [None]...), told apart
    by its [repr]. No such value is equal to a member. *)
Inductive Hashable :=
| Member (data_type : DataType)
| Foreign (repr : string).

#[global] Instance Hashable_eq_dec : EqDecision Hashable.
Proof. solve_decision. Defined.

#[global] Instance Hashable_countable : Countable Hashable.
Proof.
  refine (inj_countable'
            (λ k, match k with Member dt => inl dt | Foreign s => inr s end)
            (λ x, match x with inl dt => Member dt | inr s => Foreign s end)
            _).
  by intros [].
Defined.

(** ** [mcsv.field_processors] *)

(** The two constructors-from-timestamp handed to
    [DateAndDatetimeFieldProcessor]. *)
Inductive FromTimestamp :=
| date_fromtimestamp
| datetime_fromtimestamp.

(** Modelled from the spec: the processor classes are declared in
    [mcsv/field_processors.py], which is not among the sources. A
    processor is "bound to one FieldDescription instance and one
    null-value token (a string) at construction time; not mutated after
    construction": it is the record of the arguments its constructor is
    called with in [to_field_processor]. *)
Inductive FieldProcessor :=
| BooleanFieldProcessor (true_word false_word null_value : string)
| CurrencyFieldProcessor (pre : option bool) (currency : option string)
    (processor : FieldProcessor) (null_value : string)
| DateAndDatetimeFieldProcessor (from_timestamp : FromTimestamp)
    (date_format : string) (locale_name : option string)
    (null_value : string)
| DecimalFieldProcessor (thousand_sep : option string)
    (decimal_sep null_value : string)
| FloatFieldProcessor (thousand_sep : option string)
    (decimal_sep null_value : string)
| IntegerFieldProcessor (thousand_sep : option string) (null_value : string)
| PercentageFieldProcessor (pre : bool) (sign : option string)
    (processor : FieldProcessor) (null_value : string)
| TextFieldProcessor (null_value : string).

(** ** [mcsv.field_descriptions] *)

(** One constructor per class, with the arguments of its [__init__]. The
    wrapped description of a composite is a reference: [None] when the
    composite was built with Python's [None]. *)
#[warnings="-register-all"]
Inductive FieldDescription :=
| BooleanFieldDescription (true_word false_word : string)
| CurrencyDecimalFieldDescription (pre : option bool)
    (currency : option string)
    (decimal_description : option FieldDescription)
| CurrencyIntegerFieldDescription (pre : option bool)
    (currency : option string)
    (integer_description : option FieldDescription)
| DateFieldDescription (date_format : string) (locale_name : option string)
| DatetimeFieldDescription (date_format : string)
    (locale_name : option string)
| DecimalFieldDescription (thousand_sep : option string)
    (decimal_sep : string)
| FloatFieldDescription (thousand_sep : option string) (decimal_sep : string)
| IntegerFieldDescription (thousand_sep : option string)
| PercentageFloatFieldDescription (pre : bool) (sign : option string)
    (float_description : option FieldDescription)
| PercentageDecimalFieldDescription (pre : bool) (sign : option string)
    (decimal_description : option FieldDescription)
| TextFieldDescription.

(** Truth value of a [str]: non-empty. *)
Definition str_truth (s : string) : bool :=
  match s with
  | EmptyString => false
  | String _ _ => true
  end.

(** Truth value of an [Optional[bool]]: [None] and [False] are false. *)
Definition opt_bool_truth (b : option bool) : bool :=
  match b with
  | Some true => true
  | _ => false
  end.

(** [X.render(out)]: the destination after the call, and how the call
    ended. *)
Fixpoint render (d : FieldDescription) (out : TextIO)
  : TextIO * Outcome unit :=
  match d with
  | BooleanFieldDescription true_word false_word =>
      if str_truth false_word
      then (util.render out ["boolean"; true_word; false_word],
            Returned ())
      else (util.render out ["boolean"; true_word], Returned ())
  | CurrencyDecimalFieldDescription pre currency decimal_description =>
      let pre := util.none_to_empty
                   (Some (if opt_bool_truth pre then "pre" else "post")) in
      let currency := util.none_to_empty currency in
      let out := util.render out ["currency"; pre; currency] in
      let out := write out "/" in
      match decimal_description with
      | Some inner => render inner out
      | None => (out, Raised (AttributeError "render"))
      end
  | CurrencyIntegerFieldDescription pre currency integer_description =>
      let pre := util.none_to_empty
                   (Some (if opt_bool_truth pre then "pre" else "post")) in
      let currency := util.none_to_empty currency in
      let out := util.render out ["currency"; pre; currency] in
      let out := write out "/" in
      match integer_description with
      | Some inner => render inner out
      | None => (out, Raised (AttributeError "render"))
      end
  | DateFieldDescription date_format locale_name =>
      match locale_name with
      | None => (util.render out ["date"; date_format], Returned ())
      | Some locale_name =>
          (util.render out ["date"; date_format; locale_name], Returned ())
      end
  | DatetimeFieldDescription date_format locale_name =>
      match locale_name with
      | None => (util.render out ["datetime"; date_format], Returned ())
      | Some locale_name =>
          (util.render out ["datetime"; date_format; locale_name],
           Returned ())
      end
  | DecimalFieldDescription thousand_sep decimal_sep =>
      (util.render out
         ["decimal"; util.none_to_empty thousand_sep; decimal_sep],
       Returned ())
  | FloatFieldDescription thousand_sep decimal_sep =>
      (util.render out
         ["float"; util.none_to_empty thousand_sep; decimal_sep],
       Returned ())
  | IntegerFieldDescription thousand_sep =>
      match thousand_sep with
      | None => (write out "integer", Returned ())
      | Some _ =>
          (util.render out ["integer"; util.none_to_empty thousand_sep],
           Returned ())
      end
  | PercentageFloatFieldDescription pre sign float_description =>
      let pre := util.none_to_empty
                   (Some (if pre then "pre" else "post")) in
      let out := util.render out
                   ["percentage"; pre; util.none_to_empty sign] in
      let out := write out "/" in
      match float_description with
      | Some inner => render inner out
      | None => (out, Raised (AttributeError "render"))
      end
  | PercentageDecimalFieldDescription pre sign decimal_description =>
      let pre := util.none_to_empty
                   (Some (if pre then "pre" else "post")) in
      let out := util.render out
                   ["percentage"; pre; util.none_to_empty sign] in
      let out := write out "/" in
      match decimal_description with
      | Some inner => render inner out
      | None => (out, Raised (AttributeError "render"))
      end
  | TextFieldDescription => (write out "text", Returned ())
  end.

(** [X.to_field_processor(null_value)]. *)
Fixpoint to_field_processor (d : FieldDescription) (null_value : string)
  : Outcome FieldProcessor :=
  match d with
  | BooleanFieldDescription true_word false_word =>
      Returned (BooleanFieldProcessor true_word false_word null_value)
  | CurrencyDecimalFieldDescription pre currency decimal_description =>
      processor ← match decimal_description with
                  | Some inner => to_field_processor inner null_value
                  | None => Raised (AttributeError "to_field_processor")
                  end;
      Returned (CurrencyFieldProcessor pre currency processor null_value)
  | CurrencyIntegerFieldDescription pre currency integer_description =>
      processor ← match integer_description with
                  | Some inner => to_field_processor inner null_value
                  | None => Raised (AttributeError "to_field_processor")
                  end;
      Returned (CurrencyFieldProcessor pre currency processor null_value)
  | DateFieldDescription date_format locale_name =>
      Returned (DateAndDatetimeFieldProcessor date_fromtimestamp
                  date_format locale_name null_value)
  | DatetimeFieldDescription date_format locale_name =>
      Returned (DateAndDatetimeFieldProcessor datetime_fromtimestamp
                  date_format locale_name null_value)
  | DecimalFieldDescription thousand_sep decimal_sep =>
      Returned (DecimalFieldProcessor thousand_sep decimal_sep null_value)
  | FloatFieldDescription thousand_sep decimal_sep =>
      Returned (FloatFieldProcessor thousand_sep decimal_sep null_value)
  | IntegerFieldDescription thousand_sep =>
      Returned (IntegerFieldProcessor thousand_sep null_value)
  | PercentageFloatFieldDescription pre sign float_description =>
      processor ← match float_description with
                  | Some inner => to_field_processor inner null_value
                  | None => Raised (AttributeError "to_field_processor")
                  end;
      Returned (PercentageFieldProcessor pre sign processor null_value)
  | PercentageDecimalFieldDescription pre sign decimal_description =>
      processor ← match decimal_description with
                  | Some inner => to_field_processor inner null_value
                  | None => Raised (AttributeError "to_field_processor")
                  end;
      Returned (PercentageFieldProcessor pre sign processor null_value)
  | TextFieldDescription => Returned (TextFieldProcessor null_value)
  end.

(** [X.get_data_type()]. *)
Definition get_data_type (d : FieldDescription) : DataType :=
  match d with
  | BooleanFieldDescription _ _ => BOOLEAN
  | CurrencyDecimalFieldDescription _ _ _ => CURRENCY_DECIMAL
  | CurrencyIntegerFieldDescription _ _ _ => CURRENCY_INTEGER
  | DateFieldDescription _ _ => DATE
  | DatetimeFieldDescription _ _ => DATETIME
  | DecimalFieldDescription _ _ => DECIMAL
  | FloatFieldDescription _ _ => FLOAT
  | IntegerFieldDescription _ => INTEGER
  | PercentageFloatFieldDescription _ _ _ => PERCENTAGE_FLOAT
  | PercentageDecimalFieldDescription _ _ _ => PERCENTAGE_DECIMAL
  | TextFieldDescription => TEXT
  end.

(** No composite, at any depth, wraps [None]. *)
Fixpoint wrapped_present (d : FieldDescription) : bool :=
  match d with
  | CurrencyDecimalFieldDescription _ _ inner
  | CurrencyIntegerFieldDescription _ _ inner
  | PercentageFloatFieldDescription _ _ inner
  | PercentageDecimalFieldDescription _ _ inner =>
      match inner with
      | Some d' => wrapped_present d'
      | None => false
      end
  | _ => true
  end.

(** ** Classes and their [INSTANCE] attribute *)

Inductive Class :=
| cls_Boolean
| cls_CurrencyDecimal
| cls_CurrencyInteger
| cls_Date
| cls_Datetime
| cls_Decimal
| cls_Float
| cls_Integer
| cls_PercentageFloat
| cls_PercentageDecimal
| cls_Text.

#[global] Instance Class_eq_dec : EqDecision Class.
Proof. solve_decision. Defined.

Definition Class_to_nat (c : Class) : nat :=
  match c with
  | cls_Boolean => 0 | cls_CurrencyDecimal => 1 | cls_CurrencyInteger => 2
  | cls_Date => 3 | cls_Datetime => 4 | cls_Decimal => 5 | cls_Float => 6
  | cls_Integer => 7 | cls_PercentageFloat => 8
  | cls_PercentageDecimal => 9 | cls_Text => 10
  end%nat.

Definition Class_of_nat (n : nat) : option Class :=
  match n with
  | 0 => Some cls_Boolean | 1 => Some cls_CurrencyDecimal
  | 2 => Some cls_CurrencyInteger | 3 => Some cls_Date
  | 4 => Some cls_Datetime | 5 => Some cls_Decimal | 6 => Some cls_Float
  | 7 => Some cls_Integer | 8 => Some cls_PercentageFloat
  | 9 => Some cls_PercentageDecimal | 10 => Some cls_Text | _ => None
  end%nat.

#[global] Instance Class_countable : Countable Class.
Proof.
  refine (inj_countable Class_to_nat Class_of_nat _).
  by intros [].
Defined.

(** The class of an instance ([type(d)]). *)
Definition class_of (d : FieldDescription) : Class :=
  match d with
  | BooleanFieldDescription _ _ => cls_Boolean
  | CurrencyDecimalFieldDescription _ _ _ => cls_CurrencyDecimal
  | CurrencyIntegerFieldDescription _ _ _ => cls_CurrencyInteger
  | DateFieldDescription _ _ => cls_Date
  | DatetimeFieldDescription _ _ => cls_Datetime
  | DecimalFieldDescription _ _ => cls_Decimal
  | FloatFieldDescription _ _ => cls_Float
  | IntegerFieldDescription _ => cls_Integer
  | PercentageFloatFieldDescription _ _ _ => cls_PercentageFloat
  | PercentageDecimalFieldDescription _ _ _ => cls_PercentageDecimal
  | TextFieldDescription => cls_Text
  end.

(** The [INSTANCE] attributes. Every class body sets [INSTANCE = None]: a
    class has an entry here once an instance was assigned to it, and
    reading [X.INSTANCE] is a lookup, [None] until then. *)
Abbreviation Attributes := (gmap Class FieldDescription).

(** The class bodies alone: every [INSTANCE] is [None]. *)
Definition class_bodies : Attributes := ∅.

(** "Here are the canonical forms": the module-level assignments, in the
    order of the source. Each right-hand side is evaluated in the store
    left by the assignments before it. *)
Definition canonical_forms (a : Attributes) : Attributes :=
  let a := <[cls_Boolean := BooleanFieldDescription "true" "false"]> a in
  let a := <[cls_CurrencyInteger :=
               CurrencyIntegerFieldDescription None None
                 (a !! cls_Integer)]> a in
  let a := <[cls_CurrencyDecimal :=
               CurrencyDecimalFieldDescription None None
                 (a !! cls_Decimal)]> a in
  let a := <[cls_Date := DateFieldDescription "yyyy-MM-dd" None]> a in
  let a := <[cls_Datetime :=
               DatetimeFieldDescription "yyyy-MM-dd'T'HH:mm:ss" None]> a in
  let a := <[cls_Decimal := DecimalFieldDescription None "."]> a in
  let a := <[cls_Float := FloatFieldDescription None "."]> a in
  let a := <[cls_Integer := IntegerFieldDescription None]> a in
  let a := <[cls_PercentageDecimal :=
               PercentageDecimalFieldDescription false (Some "%")
                 (a !! cls_Decimal)]> a in
  let a := <[cls_PercentageFloat :=
               PercentageFloatFieldDescription false (Some "%")
                 (a !! cls_Float)]> a in
  let a := <[cls_Text := TextFieldDescription]> a in
  a.

(** The attributes once the module is imported. *)
Definition module_loaded : Attributes := canonical_forms class_bodies.

(** A dictionary display [{k1: v1, ..., kn: vn}]: the pairs are inserted
    from left to right. *)
Definition dict_display `{Countable K} {V} (items : list (K * V))
  : gmap K V :=
  foldl (λ m kv, <[kv.1 := kv.2]> m) ∅ items.

(** [d.get(key, default)]. *)
Definition dict_get `{Countable K} {V} (d : gmap K V) (key : K)
    (default_value : V) : V :=
  default default_value (d !! key).

(** [data_type_to_field_description(data_type)], in the store [a] of the
    [INSTANCE] attributes. The result is a reference. *)
Definition data_type_to_field_description (a : Attributes)
    (data_type : Hashable) : option FieldDescription :=
  dict_get
    (dict_display
       [ (Member BOOLEAN, a !! cls_Boolean);
         (Member CURRENCY_INTEGER, a !! cls_CurrencyInteger);
         (Member CURRENCY_DECIMAL, a !! cls_CurrencyDecimal);
         (Member DATE, a !! cls_Date);
         (Member DATETIME, a !! cls_Datetime);
         (Member DECIMAL, a !! cls_Decimal);
         (Member FLOAT, a !! cls_Float);
         (Member INTEGER, a !! cls_Integer);
         (Member PERCENTAGE_DECIMAL, a !! cls_PercentageDecimal);
         (Member PERCENTAGE_FLOAT, a !! cls_PercentageFloat);
         (Member TEXT, a !! cls_Text) ])
    data_type
    (a !! cls_Text).

(** ** [mcsv.writer] *)

(** Modelled from the spec: [MetaCSVData] is declared in
    [mcsv/meta_csv_data.py], which is not among the sources. Of its
    attributes, [_get_map_row] reads the "single null-value token shared by
    the whole table" and the dictionary of the descriptions by column
    index. *)
Record MetaCSVData := {
  null_value : string;
  field_description_by_index : gmap Z FieldDescription;
}.

(** [enumerate(row)]. *)
Definition enumerate {A} (row : list A) : list (Z * A) :=
  imap (λ i value, (Z.of_nat i, value)) row.

Section map_row.
(** The cells of a row are any Python values. *)
Context {Value : Type}.
(** The builtin [str]. *)
Variable str : Value → string.
(** [FieldProcessor.to_string], of [mcsv/field_processor.py] and
    [mcsv/field_processors.py], which are not among the sources: it may
    return a string or raise. *)
Variable to_string : FieldProcessor → Value → Outcome string.

(** The dictionary comprehension of [_get_map_row]. *)
Definition processors_of (data : MetaCSVData)
  : Outcome (gmap Z FieldProcessor) :=
  items ← mapM (λ '(i, d),
                  processor ← to_field_processor d (null_value data);
                  mret (i, processor))
               (map_to_list (field_description_by_index data));
  mret (dict_display items).

(** The closure [map_row], over its free variable [processors]. *)
Definition map_row (processors : gmap Z FieldProcessor)
    (row : list Value) : Outcome (list string) :=
  mapM (λ '(i, value),
          match processors !! i with
          | Some processor => to_string processor value
          | None => mret (str value)
          end)
       (enumerate row).

(** [MetaCSVWriterFactory._get_map_row], on the [_data] of the factory. *)
Definition _get_map_row (data : MetaCSVData)
  : Outcome (list Value → Outcome (list string)) :=
  processors ← processors_of data;
  mret (map_row processors).

(** The cell that column [i] gives for [value]: formatted by the
    processor of the description of the column, or converted by [str]
    when the column has no description. *)
Definition cell_of (data : MetaCSVData) (i : nat) (value : Value)
    (cell : string) : Prop :=
  match field_description_by_index data !! Z.of_nat i with
  | Some d =>
      ∃ processor,
        to_field_processor d (null_value data) = Returned processor
        ∧ to_string processor value = Returned cell
  | None => cell = str value
  end.
End map_row.

(** An example: a table with an Integer description for column 0 and a
    Text description for column 2, cells that are strings, and a
    [to_string] that brackets the value. *)
Definition example_data : MetaCSVData :=
  {| null_value := "NULL";
     field_description_by_index :=
       <[2 := TextFieldDescription]>
         (<[0 := IntegerFieldDescription None]> ∅) |}.

Definition example_str (value : string) : string := value.

Definition example_to_string (_ : FieldProcessor) (value : string)
  : Outcome string :=
  Returned ("<" +:+ value +:+ ">").

Definition example_processors : gmap Z FieldProcessor :=
  <[0 := IntegerFieldProcessor None "NULL"]>
    (<[2 := TextFieldProcessor "NULL"]> ∅).

Definition example_row : list string := ["1"; "b"; "c"].

(** ** The other methods of the descriptions *)

(** The Python types that [get_python_type] returns. *)
Inductive PythonType :=
| py_bool
| py_Decimal
| py_int
| py_date
| py_datetime
| py_float
| py_str.

(** [X.get_python_type()]. *)
Definition get_python_type (d : FieldDescription) : PythonType :=
  match d with
  | BooleanFieldDescription _ _ => py_bool
  | CurrencyDecimalFieldDescription _ _ _ => py_Decimal
  | CurrencyIntegerFieldDescription _ _ _ => py_int
  | DateFieldDescription _ _ => py_date
  | DatetimeFieldDescription _ _ => py_datetime
  | DecimalFieldDescription _ _ => py_Decimal
  | FloatFieldDescription _ _ => py_float
  | IntegerFieldDescription _ => py_int
  | PercentageFloatFieldDescription _ _ _ => py_float
  | PercentageDecimalFieldDescription _ _ _ => py_Decimal
  | TextFieldDescription => py_str
  end.

(** The null-value tokens a processor was built with: its own, then those
    of the processor it wraps. *)
Fixpoint null_values (p : FieldProcessor) : list string :=
  match p with
  | BooleanFieldProcessor _ _ null_value => [null_value]
  | CurrencyFieldProcessor _ _ processor null_value =>
      null_value :: null_values processor
  | DateAndDatetimeFieldProcessor _ _ _ null_value => [null_value]
  | DecimalFieldProcessor _ _ null_value => [null_value]
  | FloatFieldProcessor _ _ null_value => [null_value]
  | IntegerFieldProcessor _ null_value => [null_value]
  | PercentageFieldProcessor _ _ processor null_value =>
      null_value :: null_values processor
  | TextFieldProcessor null_value => [null_value]
  end.

(** ** The rest of [mcsv.writer] *)

(** [MetaCSVWriterFactory._get_encoding], on the two attributes of
    [_data] it reads. *)
Definition _get_encoding (encoding : string) (bom : bool) : string :=
  if bool_decide (encoding = "utf-8") && bom
  then "utf-8-sig"
  else encoding.

Section MetaCSVWriter.
Context {Value CsvWriter : Type}.
(** [writerow] of the [csv.writer] of the standard library: the writer
    after the call, and how the call ended. *)
Variable csv_writerow : CsvWriter → list string → CsvWriter * Outcome unit.

(** The attributes of a [MetaCSVWriter]. *)
Record MetaCSVWriter := {
  _writer : CsvWriter;
  _map_row : list Value → Outcome (list string);
}.

(** [MetaCSVWriter.writeheader(row)]. *)
Definition writeheader (self : MetaCSVWriter) (row : list string)
  : MetaCSVWriter * Outcome unit :=
  let '(w, o) := csv_writerow (_writer self) row in
  ({| _writer := w; _map_row := _map_row self |}, o).

(** [MetaCSVWriter.writerow(row)]: the argument [self._map_row(row)] is
    evaluated before the call of [self._writer.writerow]. *)
Definition writerow (self : MetaCSVWriter) (row : list Value)
  : MetaCSVWriter * Outcome unit :=
  match _map_row self row with
  | Returned cells =>
      let '(w, o) := csv_writerow (_writer self) cells in
      ({| _writer := w; _map_row := _map_row self |}, o)
  | Raised e => (self, Raised e)
  end.
End MetaCSVWriter.

(** Further examples: a [to_string] that raises on the value "bad", a
    dictionary of processors with entries that no row reaches, and a
    [csv.writer] that keeps the rows it is given. *)
Definition example_strict_to_string (_ : FieldProcessor) (value : string)
  : Outcome string :=
  if bool_decide (value = "bad")
  then Raised (AttributeError "quantize")
  else Returned ("<" +:+ value +:+ ">").

Definition example_far_processors : gmap Z FieldProcessor :=
  <[-1 := TextFieldProcessor "NULL"]>
    (<[7 := IntegerFieldProcessor None "NULL"]> ∅).

Definition example_csv_writerow (w : list (list string))
    (row : list string) : list (list string) * Outcome unit :=
  (w ++ [row], Returned ()).

(** * Properties *)

(** ** Induction through the wrapped description *)

Lemma FieldDescription_wrapped_ind (P : FieldDescription → Prop) :
  (∀ tw fw, P (BooleanFieldDescription tw fw)) →
  (∀ pre cur inner, (∀ d, inner = Some d → P d) →
     P (CurrencyDecimalFieldDescription pre cur inner)) →
  (∀ pre cur inner, (∀ d, inner = Some d → P d) →
     P (CurrencyIntegerFieldDescription pre cur inner)) →
  (∀ fmt loc, P (DateFieldDescription fmt loc)) →
  (∀ fmt loc, P (DatetimeFieldDescription fmt loc)) →
  (∀ sep dec, P (DecimalFieldDescription sep dec)) →
  (∀ sep dec, P (FloatFieldDescription sep dec)) →
  (∀ sep, P (IntegerFieldDescription sep)) →
  (∀ pre sign inner, (∀ d, inner = Some d → P d) →
     P (PercentageFloatFieldDescription pre sign inner)) →
  (∀ pre sign inner, (∀ d, inner = Some d → P d) →
     P (PercentageDecimalFieldDescription pre sign inner)) →
  P TextFieldDescription →
  ∀ d, P d.
Proof.
  intros HB HCD HCI HD HDT HDec HF HI HPF HPD HT.
  fix IH 1. intros d.
  destruct d as [tw fw|pre cur inner|pre cur inner|fmt loc|fmt loc
                |sep dec|sep dec|sep|pre sign inner|pre sign inner|];
    [apply HB|apply HCD|apply HCI|apply HD|apply HDT|apply HDec|apply HF
    |apply HI|apply HPF|apply HPD|apply HT];
    (destruct inner as [d'|]; intros d Hd; [|discriminate Hd];
     injection Hd as <-; apply IH).
Qed.

(** ** Text written to a destination *)

Lemma append_assoc (s1 s2 s3 : string) :
  (s1 +:+ s2) +:+ s3 = s1 +:+ (s2 +:+ s3).
Proof.
  induction s1 as [|c s1 IH]; [done|].
  change (String c ((s1 +:+ s2) +:+ s3) = String c (s1 +:+ s2 +:+ s3)).
  by rewrite IH.
Qed.

Lemma write_write (out : TextIO) (s1 s2 : string) :
  write (write out s1) s2 = write out (s1 +:+ s2).
Proof. unfold write. apply append_assoc. Qed.

(** What a composite does before it delegates: its own segments, then the
    separator. *)
Lemma render_then_separator (out : TextIO) (args : list string) :
  write (util.render out args) "/" = out +:+ (join "/" args +:+ "/").
Proof. unfold util.render. apply write_write. Qed.

(** [render] only appends: the destination after the call is the
    destination before it followed by some text, whatever the outcome. *)
Lemma render_appends (d : FieldDescription) (out : TextIO) :
  ∃ text, (render d out).1 = out +:+ text.
Proof.
  revert out.
  induction d as [tw fw|pre cur inner IH|pre cur inner IH|fmt loc|fmt loc
                 |sep dec|sep dec|sep|pre sign inner IH|pre sign inner IH|]
    using FieldDescription_wrapped_ind; intros out;
    cbn [render].
  all: try (rewrite render_then_separator;
            destruct inner as [d'|]; [|by eauto];
            edestruct (IH d' eq_refl) as [text ->];
            rewrite append_assoc; by eauto).
  - destruct (str_truth fw); unfold util.render, write; eauto.
  - destruct loc; unfold util.render, write; eauto.
  - destruct loc; unfold util.render, write; eauto.
  - unfold util.render, write; eauto.
  - unfold util.render, write; eauto.
  - destruct sep; unfold util.render, write; eauto.
  - unfold write; eauto.
Qed.

(** ** The wrapped description is a reference *)

(** On a description in which no composite wraps [None],
    [to_field_processor] returns and [render] returns. *)
Lemma to_field_processor_returns (d : FieldDescription) (token : string) :
  wrapped_present d = true → is_Returned (to_field_processor d token).
Proof.
  induction d as [tw fw|pre cur inner IH|pre cur inner IH|fmt loc|fmt loc
                 |sep dec|sep dec|sep|pre sign inner IH|pre sign inner IH|]
    using FieldDescription_wrapped_ind;
    cbn [wrapped_present to_field_processor]; intros Hw;
    try (by eexists).
  all: destruct inner as [d'|]; [|discriminate Hw];
       destruct (IH d' eq_refl Hw) as [p ->]; by eexists.
Qed.

Lemma render_returns (d : FieldDescription) (out : TextIO) :
  wrapped_present d = true → (render d out).2 = Returned ().
Proof.
  revert out.
  induction d as [tw fw|pre cur inner IH|pre cur inner IH|fmt loc|fmt loc
                 |sep dec|sep dec|sep|pre sign inner IH|pre sign inner IH|]
    using FieldDescription_wrapped_ind;
    cbn [wrapped_present render]; intros out Hw.
  all: try (destruct inner as [d'|]; [|discriminate Hw];
            by apply (IH d' eq_refl)).
  - by destruct (str_truth fw).
  - by destruct loc.
  - by destruct loc.
  - done.
  - done.
  - by destruct sep.
  - done.
Qed.

(** ** The canonical registry *)

(** Looking up a key that is no member falls through every entry of the
    dictionary. *)
Lemma dict_get_foreign (a : Attributes) (repr : string) :
  data_type_to_field_description a (Foreign repr) = a !! cls_Text.
Proof.
  unfold data_type_to_field_description, dict_get, dict_display.
  cbn [foldl fst snd].
  by rewrite !lookup_insert_ne, lookup_empty by discriminate.
Qed.

(** C1. Resolving a value that is none of the eleven members of [DataType]
    returns [TextFieldDescription.INSTANCE]; the lookup is a total function
    of the key and returns a reference, it has no raising outcome. Once the
    module is loaded that instance is the Text description. *)
Theorem data_type_to_field_description_unknown
    (a : Attributes) (repr : string) :
  data_type_to_field_description a (Foreign repr) = a !! cls_Text
  ∧ data_type_to_field_description module_loaded (Foreign repr)
    = Some TextFieldDescription.
Proof.
  rewrite !dict_get_foreign. split; [done|]. by vm_compute.
Qed.

(** C2. The default description of each of the eleven data types reports
    that data type, and [get_data_type] depends on the class of the
    instance only, not on its parameters. *)
Theorem get_data_type_of_default :
  (∀ dt : DataType,
     ∃ d, data_type_to_field_description module_loaded (Member dt) = Some d
          ∧ get_data_type d = dt)
  ∧ (∀ d1 d2 : FieldDescription,
       class_of d1 = class_of d2 → get_data_type d1 = get_data_type d2).
Proof.
  split.
  - intros dt. destruct dt; eexists; (split; [by vm_compute|done]).
  - intros d1 d2 Hc. destruct d1, d2; done.
Qed.

Lemma get_data_type_of_default_witness :
  class_of (BooleanFieldDescription "true" "false")
    = class_of (BooleanFieldDescription "oui" "")
  ∧ get_data_type (BooleanFieldDescription "true" "false")
    = get_data_type (BooleanFieldDescription "oui" "").
Proof.
  split; [reflexivity|].
  apply (proj2 get_data_type_of_default). reflexivity.
Defined.

(** C3. The canonical instances: Integer without thousand separator,
    Decimal without thousand separator and with "." as decimal separator,
    Boolean with "true" and "false", Date with the pattern "yyyy-MM-dd" and
    no locale. *)
Theorem canonical_instances_parameters :
  module_loaded !! cls_Integer = Some (IntegerFieldDescription None)
  ∧ module_loaded !! cls_Decimal = Some (DecimalFieldDescription None ".")
  ∧ module_loaded !! cls_Boolean
    = Some (BooleanFieldDescription "true" "false")
  ∧ module_loaded !! cls_Date
    = Some (DateFieldDescription "yyyy-MM-dd" None).
Proof. repeat split; by vm_compute. Qed.

(** ** Rendering *)

(** C4. A CurrencyDecimal description with [pre=False], the currency "$",
    over a Decimal description without thousand separator and with "." as
    decimal separator, writes [currency/post/$/decimal//.] and returns;
    a composite writes its own segments, then "/", then lets the wrapped
    description render to the same destination. *)
Theorem render_currency_decimal_post_dollar :
  (∀ out : TextIO,
     render
       (CurrencyDecimalFieldDescription (Some false) (Some "$")
          (Some (DecimalFieldDescription None "."))) out
     = (out +:+ "currency/post/$/decimal//.", Returned ()))
  ∧ (∀ pre currency inner out,
       render
         (CurrencyDecimalFieldDescription pre currency (Some inner)) out
       = render inner
           (write
              (util.render out
                 ["currency"; if opt_bool_truth pre then "pre" else "post";
                  util.none_to_empty currency])
              "/")).
Proof.
  split; [|done].
  intros out. cbn [render].
  rewrite render_then_separator. unfold util.render, write.
  by rewrite append_assoc.
Qed.

(** C5. [PercentageFloatFieldDescription.INSTANCE] is built with
    [pre=False], the sign "%" and the default Float description, and
    writes [percentage/post/%/float//.]. *)
Theorem render_percentage_float_default :
  module_loaded !! cls_PercentageFloat
    = Some (PercentageFloatFieldDescription false (Some "%")
              (Some (FloatFieldDescription None ".")))
  ∧ module_loaded !! cls_Float = Some (FloatFieldDescription None ".")
  ∧ ∀ out : TextIO,
      render
        (PercentageFloatFieldDescription false (Some "%")
           (Some (FloatFieldDescription None "."))) out
      = (out +:+ "percentage/post/%/float//.", Returned ()).
Proof.
  split; [by vm_compute|]. split; [by vm_compute|].
  intros out. cbn [render].
  rewrite render_then_separator. unfold util.render, write.
  by rewrite append_assoc.
Qed.

(** C6. A Boolean description writes [boolean/<true_word>/<false_word>]
    when the false word is not empty, and [boolean/<true_word>] when it is
    the empty string. *)
Theorem render_boolean (true_word false_word : string) (out : TextIO) :
  (false_word ≠ "" →
     render (BooleanFieldDescription true_word false_word) out
     = (out +:+ "boolean/" +:+ true_word +:+ "/" +:+ false_word,
        Returned ()))
  ∧ (false_word = "" →
     render (BooleanFieldDescription true_word false_word) out
     = (out +:+ "boolean/" +:+ true_word, Returned ())).
Proof.
  cbn [render]. split.
  - intros Hne. by destruct false_word.
  - by intros ->.
Qed.

Lemma render_boolean_witness :
  ("no" ≠ "" ∧
   render (BooleanFieldDescription "yes" "no") "x="
   = ("x=boolean/yes/no", Returned ()))
  ∧ ("" = "" ∧
     render (BooleanFieldDescription "yes" "") "x="
     = ("x=boolean/yes", Returned ())).
Proof.
  split; (split; [done|]).
  - apply (proj1 (render_boolean "yes" "no" "x=")). done.
  - apply (proj2 (render_boolean "yes" "" "x=")). done.
Defined.

(** C7. Trailing optional parameters that are absent are left out: an
    Integer description without thousand separator writes the bare
    [integer] (with a separator [s], [integer/<s>]), a Date or Datetime
    description without locale writes [date/<pattern>] or
    [datetime/<pattern>] only. An absent optional parameter that is not
    the last one is written as an empty segment: a Float or Decimal
    description without thousand separator writes [float//<decimal_sep>]
    or [decimal//<decimal_sep>]. *)
Theorem render_optional_parameters (out : TextIO) :
  render (IntegerFieldDescription None) out
    = (out +:+ "integer", Returned ())
  ∧ (∀ s, render (IntegerFieldDescription (Some s)) out
          = (out +:+ "integer/" +:+ s, Returned ()))
  ∧ (∀ pattern, render (DateFieldDescription pattern None) out
                = (out +:+ "date/" +:+ pattern, Returned ()))
  ∧ (∀ pattern,
       render (DatetimeFieldDescription pattern None) out
       = (out +:+ "datetime/" +:+ pattern, Returned ()))
  ∧ (∀ decimal_sep,
       render (FloatFieldDescription None decimal_sep) out
       = (out +:+ "float//" +:+ decimal_sep, Returned ()))
  ∧ (∀ decimal_sep,
       render (DecimalFieldDescription None decimal_sep) out
       = (out +:+ "decimal//" +:+ decimal_sep, Returned ()))
  ∧ render (FloatFieldDescription None ".") out
    = (out +:+ "float//.", Returned ())
  ∧ (∀ pre inner,
       render
         (CurrencyIntegerFieldDescription (Some pre) None (Some inner)) out
       = render inner
           (out +:+ "currency/" +:+ (if pre then "pre" else "post")
                +:+ "//"))
  ∧ (∀ pre inner,
       render
         (PercentageDecimalFieldDescription pre None (Some inner)) out
       = render inner
           (out +:+ "percentage/" +:+ (if pre then "pre" else "post")
                +:+ "//")).
Proof.
  repeat split; intros pre inner; cbn [render];
    rewrite render_then_separator; by destruct pre.
Qed.

(** What both Currency classes write themselves when the flag is false,
    and what the destination holds once the wrapped description has
    rendered after it. *)
Lemma currency_post_own (currency : option string) (out : TextIO) :
  write
    (util.render out ["currency"; "post"; util.none_to_empty currency]) "/"
  = out +:+ "currency/post/" +:+ util.none_to_empty currency +:+ "/"
        +:+ "".
Proof.
  rewrite render_then_separator.
  change (join "/" ["currency"; "post"; util.none_to_empty currency])
    with ("currency/post/" +:+ util.none_to_empty currency).
  by rewrite !append_assoc.
Qed.

Lemma currency_post_delegate (currency : option string)
    (d : FieldDescription) (out : TextIO) :
  ∃ text,
    (render d
       (write
          (util.render out
             ["currency"; "post"; util.none_to_empty currency])
          "/")).1
    = out +:+ "currency/post/" +:+ util.none_to_empty currency +:+ "/"
          +:+ text.
Proof.
  rewrite currency_post_own.
  destruct (render_appends d
              (out +:+ "currency/post/" +:+ util.none_to_empty currency
                   +:+ "/" +:+ "")) as [text ->].
  exists text. by rewrite !append_assoc.
Qed.

(** C9. A Currency description built with [pre=None] writes the flag
    segment "post": [render] does on it exactly what it does on the
    description built with [pre=False], and the text it appends starts
    with [currency/post/<currency>/]. Both default Currency instances are
    built with [pre=None] (and [currency=None]), so the text they append
    starts with [currency/post/], not with [currency//]. *)
Theorem render_currency_absent_flag :
  (∀ currency inner out,
     render
       (CurrencyIntegerFieldDescription None currency inner) out
     = render
         (CurrencyIntegerFieldDescription (Some false) currency inner) out
     ∧ ∃ text,
         (render
            (CurrencyIntegerFieldDescription None currency inner) out).1
         = out +:+ "currency/post/" +:+ util.none_to_empty currency
               +:+ "/" +:+ text)
  ∧ (∀ currency inner out,
       render
         (CurrencyDecimalFieldDescription None currency inner) out
       = render
           (CurrencyDecimalFieldDescription (Some false) currency inner) out
       ∧ ∃ text,
           (render
              (CurrencyDecimalFieldDescription None currency inner) out).1
           = out +:+ "currency/post/" +:+ util.none_to_empty currency
                 +:+ "/" +:+ text)
  ∧ (∃ inner,
       module_loaded !! cls_CurrencyInteger
       = Some (CurrencyIntegerFieldDescription None None inner)
       ∧ ∀ out, ∃ text,
           (render
              (CurrencyIntegerFieldDescription None None inner) out).1
           = out +:+ "currency/post/" +:+ text)
  ∧ (∃ inner,
       module_loaded !! cls_CurrencyDecimal
       = Some (CurrencyDecimalFieldDescription None None inner)
       ∧ ∀ out, ∃ text,
           (render
              (CurrencyDecimalFieldDescription None None inner) out).1
           = out +:+ "currency/post/" +:+ text).
Proof.
  split; [|split; [|split]].
  - intros currency inner out. split; [done|].
    cbn [render opt_bool_truth util.none_to_empty].
    destruct inner as [d|]; [apply currency_post_delegate|].
    exists "". apply currency_post_own.
  - intros currency inner out. split; [done|].
    cbn [render opt_bool_truth util.none_to_empty].
    destruct inner as [d|]; [apply currency_post_delegate|].
    exists "". apply currency_post_own.
  - eexists. split; [by vm_compute|]. intros out.
    exists "/". apply (currency_post_own None).
  - eexists. split; [by vm_compute|]. intros out.
    exists "/". apply (currency_post_own None).
Qed.

(** ** The default Currency instances *)

(** Rendering a default Currency instance writes [currency/post//] and
    then raises: the wrapped description it should delegate to is
    [None]. *)
Lemma render_default_currency_raises (out : TextIO) :
  (∃ d, module_loaded !! cls_CurrencyInteger = Some d
        ∧ render d out
          = (out +:+ "currency/post//", Raised (AttributeError "render")))
  ∧ (∃ d, module_loaded !! cls_CurrencyDecimal = Some d
          ∧ render d out
            = (out +:+ "currency/post//",
               Raised (AttributeError "render"))).
Proof.
  split; eexists; (split; [by vm_compute|]); cbn [render];
    by rewrite render_then_separator.
Qed.

(** The Percentage instances, assigned after the instances they wrap, are
    complete. *)
Lemma default_percentage_wrapped_present :
  (wrapped_present <$> module_loaded !! cls_PercentageFloat) = Some true
  ∧ (wrapped_present <$> module_loaded !! cls_PercentageDecimal)
    = Some true
  ∧ (wrapped_present <$> module_loaded !! cls_CurrencyInteger) = Some false
  ∧ (wrapped_present <$> module_loaded !! cls_CurrencyDecimal)
    = Some false.
Proof. repeat split; by vm_compute. Qed.


(** C8. [to_field_processor] does not return on the default Currency
    instances: the description they wrap is [None], because
    [IntegerFieldDescription.INSTANCE] and
    [DecimalFieldDescription.INSTANCE] are read before they are assigned,
    and the call raises [AttributeError] for every null-value token. *)
Theorem to_field_processor_default_currency_raises (token : string) :
  (∃ d, data_type_to_field_description module_loaded
          (Member CURRENCY_INTEGER) = Some d
        ∧ d = CurrencyIntegerFieldDescription None None None
        ∧ to_field_processor d token
          = Raised (AttributeError "to_field_processor"))
  ∧ (∃ d, data_type_to_field_description module_loaded
            (Member CURRENCY_DECIMAL) = Some d
          ∧ d = CurrencyDecimalFieldDescription None None None
          ∧ to_field_processor d token
            = Raised (AttributeError "to_field_processor")).
Proof.
  split; eexists; (split; [by vm_compute|]); by split.
Qed.

(** ** The row mapping *)

(** A comprehension returns the list of what each element returned, and
    returns as soon as every element does. *)
Lemma mapM_Returned {A B} (f : A → Outcome B) (l : list A) (k : list B) :
  mapM f l = Returned k ↔ Forall2 (λ x y, f x = Returned y) l k.
Proof.
  revert k. induction l as [|x l IH]; intros k; simpl;
    unfold mbind, Outcome_bind, mret, Outcome_ret.
  - split; [intros ?; simplify_eq; constructor
           |by intros ->%Forall2_nil_inv_l].
  - destruct (f x) as [y|e] eqn:Hx.
    + destruct (mapM f l) as [k'|e] eqn:Hl.
      * split.
        -- intros ?; simplify_eq. constructor; [done|]. by apply IH.
        -- inversion 1 as [|? y' ? k'' Hy Hk]; subst.
           apply IH in Hk. congruence.
      * split; [done|].
        inversion 1 as [|? y' ? k'' Hy Hk]; subst.
        apply IH in Hk. congruence.
    + split; [done|]. inversion 1; congruence.
Qed.

Lemma mapM_is_Returned {A B} (f : A → Outcome B) (l : list A) :
  Forall (λ x, is_Returned (f x)) l → is_Returned (mapM f l).
Proof.
  induction 1 as [|x l [y Hy] _ [k Hk]]; [by eexists|].
  change (mapM f (x :: l)) with (y ← f x; k ← mapM f l; mret (y :: k)).
  rewrite Hy, Hk. by eexists.
Qed.

(** A display without repeated keys holds exactly its pairs. *)
Lemma dict_display_lookup `{Countable K} {V} (items : list (K * V)) i v :
  NoDup items.*1 → dict_display items !! i = Some v ↔ (i, v) ∈ items.
Proof.
  intros Hnd.
  assert (dict_display items = list_to_map (reverse items)) as ->.
  { unfold dict_display. rewrite <-(reverse_involutive items) at 1.
    generalize (reverse items). intros l.
    induction l as [|[k x] l IH]; [done|].
    rewrite reverse_cons, foldl_app. simpl. by rewrite IH. }
  rewrite <-elem_of_list_to_map, elem_of_reverse; [done|].
  by rewrite fmap_reverse, reverse_Permutation.
Qed.

(** [processors] holds, at the index of each described column and nowhere
    else, the processor that the description of the column builds for the
    null-value token of the table. *)
Lemma processors_of_lookup (data : MetaCSVData)
    (processors : gmap Z FieldProcessor) :
  processors_of data = Returned processors →
  ∀ i : Z,
    match field_description_by_index data !! i with
    | Some d =>
        ∃ processor,
          to_field_processor d (null_value data) = Returned processor
          ∧ processors !! i = Some processor
    | None => processors !! i = None
    end.
Proof.
  unfold processors_of. destruct data as [token m]; simpl.
  destruct (mapM _ (map_to_list m)) as [items|e] eqn:Hitems; [|done].
  intros [= <-] i.
  apply mapM_Returned in Hitems.
  assert (HR : Forall2 (λ x y, y.1 = x.1
                               ∧ to_field_processor x.2 token = Returned y.2)
                 (map_to_list m) items).
  { eapply Forall2_impl; [exact Hitems|].
    intros [j d] [j' p]; simpl.
    unfold mbind, Outcome_bind, mret, Outcome_ret.
    destruct (to_field_processor d token); [|done].
    intros ?; by simplify_eq. }
  assert (Hkeys : items.*1 = (map_to_list m).*1).
  { clear Hitems. induction HR as [|x y l k [Hxy _] _ IH]; [done|].
    rewrite !fmap_cons. by rewrite Hxy, IH. }
  assert (Hnd : NoDup items.*1).
  { rewrite Hkeys. apply NoDup_fst_map_to_list. }
  destruct (m !! i) as [d|] eqn:Hi.
  - apply elem_of_map_to_list, list_elem_of_lookup in Hi as [n Hn].
    destruct (Forall2_lookup_l _ _ _ _ _ HR Hn) as ([j p] & Hp & Hj & Hd).
    simpl in Hj, Hd. subst j. exists p. split; [done|].
    apply dict_display_lookup; [done|].
    apply list_elem_of_lookup. by exists n.
  - destruct (dict_display items !! i) as [p|] eqn:Hp; [|done].
    apply dict_display_lookup, list_elem_of_lookup in Hp as [n Hn];
      [|done].
    destruct (Forall2_lookup_r _ _ _ _ _ HR Hn) as ([j d] & Hd & Hj & _).
    simpl in Hj. subst j.
    assert ((i, d) ∈ map_to_list m) as Hin
      by (apply list_elem_of_lookup; by exists n).
    apply elem_of_map_to_list in Hin. congruence.
Qed.

Section map_row_properties.
Context {Value : Type}.
Variable str : Value → string.
Variable to_string : FieldProcessor → Value → Outcome string.

(** C10. Let [_get_map_row] return the closure [f]. Whenever [f row]
    returns, the list it returns has the length of the row, and its cell
    [i] is what [to_string] of the processor of column [i] returned for
    the value [i] of the row when column [i] has a description, the
    processor being the one the description builds for the null-value
    token of the table, and is [str] of the value otherwise. And [f row]
    does return as soon as [to_string] returns on every described cell
    of the row. *)
Theorem map_row_cells (data : MetaCSVData)
    (f : list Value → Outcome (list string)) (row : list Value) :
  _get_map_row str to_string data = Returned f →
  (∀ cells,
     f row = Returned cells →
     length cells = length row
     ∧ ∀ i value,
         row !! i = Some value →
         ∃ cell,
           cells !! i = Some cell
           ∧ cell_of str to_string data i value cell)
  ∧ ((∀ i value d processor,
        row !! i = Some value →
        field_description_by_index data !! Z.of_nat i = Some d →
        to_field_processor d (null_value data) = Returned processor →
        is_Returned (to_string processor value)) →
     is_Returned (f row)).
Proof.
  unfold _get_map_row.
  destruct (processors_of data) as [processors|e] eqn:Hps; [|done].
  unfold mbind, Outcome_bind, mret, Outcome_ret. intros ?; simplify_eq.
  pose proof (processors_of_lookup data processors Hps) as Hlookup.
  unfold map_row. split.
  - intros cells Hcells. apply mapM_Returned in Hcells.
    split.
    { apply Forall2_length in Hcells.
      unfold enumerate in Hcells. by rewrite length_imap in Hcells. }
    intros i value Hi.
    assert (enumerate row !! i = Some (Z.of_nat i, value)) as Hen.
    { unfold enumerate. by rewrite list_lookup_imap, Hi. }
    destruct (Forall2_lookup_l _ _ _ _ _ Hcells Hen) as (cell & Hc & Hf).
    exists cell. split; [done|].
    unfold cell_of. specialize (Hlookup (Z.of_nat i)).
    destruct (field_description_by_index data !! Z.of_nat i) as [d|].
    + destruct Hlookup as (p & Hp & Hpi). rewrite Hpi in Hf. eauto.
    + rewrite Hlookup in Hf. unfold mret, Outcome_ret in Hf.
      by simplify_eq.
  - intros Hret. apply mapM_is_Returned.
    apply Forall_lookup. intros i [j value] Hen.
    unfold enumerate in Hen. rewrite list_lookup_imap in Hen.
    destruct (row !! i) as [v|] eqn:Hi; [|done].
    simpl in Hen. simplify_eq.
    specialize (Hlookup (Z.of_nat i)).
    destruct (field_description_by_index data !! Z.of_nat i) as [d|]
      eqn:Hd.
    + destruct Hlookup as (p & Hp & Hpi). rewrite Hpi. eauto.
    + rewrite Hlookup. by eexists.
Qed.
End map_row_properties.

Lemma map_row_cells_witness :
  _get_map_row example_str example_to_string example_data
    = Returned (map_row example_str example_to_string example_processors)
  ∧ map_row example_str example_to_string example_processors example_row
    = Returned ["<1>"; "b"; "<c>"]
  ∧ (∀ cells,
       map_row example_str example_to_string example_processors example_row
         = Returned cells →
       length cells = length example_row
       ∧ ∀ i value,
           example_row !! i = Some value →
           ∃ cell,
             cells !! i = Some cell
             ∧ cell_of example_str example_to_string example_data
                 i value cell)
  ∧ ((∀ i value d processor,
        example_row !! i = Some value →
        field_description_by_index example_data !! Z.of_nat i = Some d →
        to_field_processor d (null_value example_data)
          = Returned processor →
        is_Returned (example_to_string processor value)) →
     is_Returned
       (map_row example_str example_to_string example_processors
          example_row)).
Proof.
  split; [by vm_compute|]. split; [by vm_compute|].
  apply (map_row_cells example_str example_to_string example_data
           (map_row example_str example_to_string example_processors)
           example_row).
  by vm_compute.
Defined.

(** * Further properties *)

(** ** When [render] and [to_field_processor] raise *)

Ltac outcome_unfold :=
  unfold mbind, Outcome_bind, mret, Outcome_ret in *.

(** The outcome of [render], by whether some composite wraps [None]. *)
Lemma render_outcome_wrapped (d : FieldDescription) (out : TextIO) :
  (render d out).2
  = if wrapped_present d then Returned ()
    else Raised (AttributeError "render").
Proof.
  revert out.
  induction d as [tw fw|pre cur inner IH|pre cur inner IH|fmt loc|fmt loc
                 |sep dec|sep dec|sep|pre sign inner IH|pre sign inner IH|]
    using FieldDescription_wrapped_ind;
    cbn [wrapped_present render]; intros out.
  all: try (destruct inner as [d'|]; [by apply (IH d' eq_refl)|done]).
  - by destruct (str_truth fw).
  - by destruct loc.
  - by destruct loc.
  - done.
  - done.
  - by destruct sep.
  - done.
Qed.

(** The outcome of [to_field_processor], likewise. *)
Lemma to_field_processor_outcome_wrapped (d : FieldDescription)
    (token : string) :
  match to_field_processor d token with
  | Returned _ => wrapped_present d = true
  | Raised e =>
      wrapped_present d = false ∧ e = AttributeError "to_field_processor"
  end.
Proof.
  induction d as [tw fw|pre cur inner IH|pre cur inner IH|fmt loc
                 |fmt loc|sep dec|sep dec|sep|pre sign inner IH
                 |pre sign inner IH|]
    using FieldDescription_wrapped_ind;
    cbn [wrapped_present to_field_processor]; try done.
  all: destruct inner as [d'|]; [|done];
       specialize (IH d' eq_refl); outcome_unfold;
       by destruct (to_field_processor d' token).
Qed.

Lemma to_field_processor_returns_iff (d : FieldDescription)
    (token : string) :
  is_Returned (to_field_processor d token) ↔ wrapped_present d = true.
Proof.
  pose proof (to_field_processor_outcome_wrapped d token) as Hm.
  destruct (to_field_processor d token) as [p|e].
  - split; [done|]. intros _. by eexists.
  - destruct Hm as [-> _]. split; [by intros [p Hp]|done].
Qed.

(** [render] returns exactly on the descriptions in which no composite
    wraps [None], and raises the [AttributeError] of the missing [render]
    on the others. [to_field_processor] returns on the same descriptions,
    and raises the [AttributeError] of the missing [to_field_processor]
    on the others: a description can be rendered if and only if a
    processor can be built from it. *)
Theorem render_and_to_field_processor_outcome (d : FieldDescription)
    (token : string) (out : TextIO) :
  (render d out).2
  = (if wrapped_present d then Returned ()
     else Raised (AttributeError "render"))
  ∧ match to_field_processor d token with
    | Returned _ => wrapped_present d = true
    | Raised e =>
        wrapped_present d = false
        ∧ e = AttributeError "to_field_processor"
    end
  ∧ (is_Returned (to_field_processor d token)
     ↔ (render d out).2 = Returned ()).
Proof.
  split; [apply render_outcome_wrapped|].
  split; [apply to_field_processor_outcome_wrapped|].
  rewrite to_field_processor_returns_iff, render_outcome_wrapped.
  by destruct (wrapped_present d).
Qed.

(** What [render] appends and how it ends do not depend on what the
    destination already holds. *)
Theorem render_on_any_destination (d : FieldDescription) (out : TextIO) :
  render d out = (out +:+ (render d "").1, (render d "").2).
Proof.
  revert out.
  induction d as [tw fw|pre cur inner IH|pre cur inner IH|fmt loc|fmt loc
                 |sep dec|sep dec|sep|pre sign inner IH|pre sign inner IH|]
    using FieldDescription_wrapped_ind; intros out; cbn [render].
  all: try (rewrite !render_then_separator;
            destruct inner as [d'|]; [|done];
            rewrite (IH d' eq_refl (out +:+ _));
            rewrite (IH d' eq_refl ("" +:+ _));
            cbn [fst snd]; by rewrite append_assoc).
  - by destruct (str_truth fw).
  - by destruct loc.
  - by destruct loc.
  - done.
  - done.
  - by destruct sep.
  - done.
Qed.

(** [render] always writes at least one character, also when it raises:
    a [render] that fails on a wrapped [None] has by then written the
    segments of the composites around it, and the destination keeps
    them. *)
Theorem render_always_writes (d : FieldDescription) (out : TextIO) :
  ∃ (c : Ascii.ascii) (text : string),
    (render d out).1 = out +:+ String c text.
Proof.
  destruct d as [tw fw|pre cur inner|pre cur inner|fmt loc|fmt loc
                |sep dec|sep dec|sep|pre sign inner|pre sign inner|];
    cbn [render].
  all: try (rewrite render_then_separator;
            destruct inner as [d'|];
            [edestruct (render_appends d') as [text ->];
             rewrite append_assoc|];
            by eexists _, _).
  - destruct (str_truth fw); by eexists _, _.
  - destruct loc; by eexists _, _.
  - destruct loc; by eexists _, _.
  - by eexists _, _.
  - by eexists _, _.
  - destruct sep; by eexists _, _.
  - by eexists _, _.
Qed.

(** ** The processor that is built *)

(** Every processor built from a description, the wrapped ones included,
    is built with the null-value token given to the outermost call. *)
Theorem to_field_processor_null_values (d : FieldDescription)
    (token : string) (p : FieldProcessor) :
  to_field_processor d token = Returned p →
  ∀ nv, nv ∈ null_values p → nv = token.
Proof.
  revert p.
  induction d as [tw fw|pre cur inner IH|pre cur inner IH|fmt loc|fmt loc
                 |sep dec|sep dec|sep|pre sign inner IH|pre sign inner IH|]
    using FieldDescription_wrapped_ind;
    cbn [to_field_processor]; intros p Hp nv Hnv.
  all: try (destruct inner as [d'|]; [|done];
            specialize (IH d' eq_refl); outcome_unfold;
            destruct (to_field_processor d' token) as [p'|]; [|done];
            simplify_eq; cbn [null_values] in Hnv;
            apply elem_of_cons in Hnv as [->|Hnv]; [done|];
            by apply (IH p')).
  all: simplify_eq; cbn [null_values] in Hnv;
       by apply list_elem_of_singleton in Hnv.
Qed.

Lemma to_field_processor_null_values_witness :
  to_field_processor
    (PercentageDecimalFieldDescription false (Some "%")
       (Some (DecimalFieldDescription None "."))) "NULL"
  = Returned
      (PercentageFieldProcessor false (Some "%")
         (DecimalFieldProcessor None "." "NULL") "NULL")
  ∧ ∀ nv,
      nv ∈ null_values
             (PercentageFieldProcessor false (Some "%")
                (DecimalFieldProcessor None "." "NULL") "NULL") →
      nv = "NULL".
Proof.
  split; [reflexivity|].
  apply (to_field_processor_null_values
           (PercentageDecimalFieldDescription false (Some "%")
              (Some (DecimalFieldDescription None "."))) "NULL").
  reflexivity.
Defined.

(** Two descriptions from which the same processor is built write the
    same notation: the processor keeps everything [render] writes. (The
    converse fails: [pre=None] and [pre=False] write the same notation and
    build different processors.) *)
Theorem same_processor_same_notation (d1 d2 : FieldDescription)
    (token1 token2 : string) (p : FieldProcessor) :
  to_field_processor d1 token1 = Returned p →
  to_field_processor d2 token2 = Returned p →
  ∀ out, render d1 out = render d2 out.
Proof.
  revert d2 p.
  induction d1 as [tw fw|pre cur inner IH|pre cur inner IH|fmt loc|fmt loc
                  |sep dec|sep dec|sep|pre sign inner IH|pre sign inner IH|]
    using FieldDescription_wrapped_ind;
    intros d2 p H1 H2 out;
    destruct d2 as [tw2 fw2|pre2 cur2 inner2|pre2 cur2 inner2|fmt2 loc2
                   |fmt2 loc2|sep2 dec2|sep2 dec2|sep2|pre2 sign2 inner2
                   |pre2 sign2 inner2|];
    cbn [to_field_processor] in H1, H2; outcome_unfold;
    try (destruct inner as [i1|]; [|done];
         destruct (to_field_processor i1 token1) as [q1|] eqn:Hq1;
         [|done]);
    try (destruct inner2 as [i2|]; [|done];
         destruct (to_field_processor i2 token2) as [q2|] eqn:Hq2;
         [|done]);
    simplify_eq; try done;
    cbn [render]; by apply (IH i1 eq_refl i2 q2).
Qed.

Lemma same_processor_same_notation_witness :
  to_field_processor
    (CurrencyDecimalFieldDescription (Some true) (Some "$")
       (Some (IntegerFieldDescription None))) "NULL"
  = Returned
      (CurrencyFieldProcessor (Some true) (Some "$")
         (IntegerFieldProcessor None "NULL") "NULL")
  ∧ to_field_processor
      (CurrencyIntegerFieldDescription (Some true) (Some "$")
         (Some (IntegerFieldDescription None))) "NULL"
    = Returned
        (CurrencyFieldProcessor (Some true) (Some "$")
           (IntegerFieldProcessor None "NULL") "NULL")
  ∧ ∀ out,
      render
        (CurrencyDecimalFieldDescription (Some true) (Some "$")
           (Some (IntegerFieldDescription None))) out
      = render
          (CurrencyIntegerFieldDescription (Some true) (Some "$")
             (Some (IntegerFieldDescription None))) out.
Proof.
  split; [reflexivity|]. split; [reflexivity|].
  apply (same_processor_same_notation _ _ "NULL" "NULL"
           (CurrencyFieldProcessor (Some true) (Some "$")
              (IntegerFieldProcessor None "NULL") "NULL"));
    reflexivity.
Defined.

(** Two descriptions that report the same data type are instances of the
    same class and report the same Python type: no data type is shared by
    two classes. *)
Theorem get_python_type_of_data_type (d1 d2 : FieldDescription) :
  get_data_type d1 = get_data_type d2 →
  class_of d1 = class_of d2 ∧ get_python_type d1 = get_python_type d2.
Proof. destruct d1, d2; done. Qed.

Lemma get_python_type_of_data_type_witness :
  get_data_type (DecimalFieldDescription None ".")
    = get_data_type (DecimalFieldDescription (Some " ") ",")
  ∧ class_of (DecimalFieldDescription None ".")
    = class_of (DecimalFieldDescription (Some " ") ",")
  ∧ get_python_type (DecimalFieldDescription None ".")
    = get_python_type (DecimalFieldDescription (Some " ") ",").
Proof.
  split; [reflexivity|].
  apply get_python_type_of_data_type. reflexivity.
Defined.

(** ** More on the canonical registry *)

(** Once the module is loaded the registry never answers [None],
    whatever the key; with the class bodies alone it always does. *)
Theorem data_type_to_field_description_is_Some (key : Hashable) :
  is_Some (data_type_to_field_description module_loaded key)
  ∧ data_type_to_field_description class_bodies key = None.
Proof.
  destruct key as [dt|repr].
  - split; [destruct dt; eexists; by vm_compute|].
    destruct dt; by vm_compute.
  - rewrite !dict_get_foreign. split; [eexists|]; by vm_compute.
Qed.

(** The registry and [get_data_type] are inverse to each other on the
    canonical instances: resolving the data type of the [INSTANCE] of a
    class gives that instance back, and no two data types resolve to the
    same description. *)
Theorem registry_round_trip :
  (∀ (c : Class) (d : FieldDescription),
     module_loaded !! c = Some d →
     class_of d = c
     ∧ data_type_to_field_description module_loaded
         (Member (get_data_type d)) = Some d)
  ∧ (∀ dt1 dt2 : DataType,
       data_type_to_field_description module_loaded (Member dt1)
       = data_type_to_field_description module_loaded (Member dt2) →
       dt1 = dt2).
Proof.
  split.
  - intros c d Hd. destruct c; vm_compute in Hd; by simplify_eq.
  - intros dt1 dt2 Heq.
    destruct dt1, dt2; try done; vm_compute in Heq; by simplify_eq.
Qed.

Lemma registry_round_trip_witness :
  module_loaded !! cls_PercentageFloat
  = Some (PercentageFloatFieldDescription false (Some "%")
            (Some (FloatFieldDescription None ".")))
  ∧ class_of (PercentageFloatFieldDescription false (Some "%")
                (Some (FloatFieldDescription None ".")))
    = cls_PercentageFloat
  ∧ data_type_to_field_description module_loaded
      (Member
         (get_data_type
            (PercentageFloatFieldDescription false (Some "%")
               (Some (FloatFieldDescription None ".")))))
    = Some (PercentageFloatFieldDescription false (Some "%")
              (Some (FloatFieldDescription None "."))).
Proof.
  split; [by vm_compute|].
  apply (proj1 registry_round_trip cls_PercentageFloat). by vm_compute.
Defined.

(** Of the eleven default descriptions, exactly the two Currency ones
    cannot be rendered and cannot build a processor. *)
Theorem default_description_usable (dt : DataType) (d : FieldDescription)
    (token : string) (out : TextIO) :
  data_type_to_field_description module_loaded (Member dt) = Some d →
  ((render d out).2 = Returned ()
   ↔ dt ≠ CURRENCY_INTEGER ∧ dt ≠ CURRENCY_DECIMAL)
  ∧ (is_Returned (to_field_processor d token)
     ↔ dt ≠ CURRENCY_INTEGER ∧ dt ≠ CURRENCY_DECIMAL).
Proof.
  intros Hd.
  assert (Hw : wrapped_present d = true
               ↔ dt ≠ CURRENCY_INTEGER ∧ dt ≠ CURRENCY_DECIMAL).
  { destruct dt; vm_compute in Hd; simplify_eq; cbn [wrapped_present];
      split; (done || by intros []). }
  split.
  - rewrite render_outcome_wrapped, <-Hw. by destruct (wrapped_present d).
  - by rewrite to_field_processor_returns_iff.
Qed.

Lemma default_description_usable_witness :
  data_type_to_field_description module_loaded (Member DATE)
  = Some (DateFieldDescription "yyyy-MM-dd" None)
  ∧ ((render (DateFieldDescription "yyyy-MM-dd" None) "").2 = Returned ()
     ↔ DATE ≠ CURRENCY_INTEGER ∧ DATE ≠ CURRENCY_DECIMAL)
  ∧ (is_Returned
       (to_field_processor (DateFieldDescription "yyyy-MM-dd" None) "NULL")
     ↔ DATE ≠ CURRENCY_INTEGER ∧ DATE ≠ CURRENCY_DECIMAL).
Proof.
  split; [by vm_compute|].
  apply (default_description_usable DATE). by vm_compute.
Defined.

(** ** More on the row mapping *)

(** A comprehension that raises raises what its first failing element
    raised. *)
Lemma mapM_Raised {A B} (f : A → Outcome B) (l : list A) (e : PyError) :
  mapM f l = Raised e →
  ∃ (i : nat) (x : A),
    l !! i = Some x ∧ f x = Raised e
    ∧ ∀ (j : nat) (y : A), (j < i)%nat → l !! j = Some y →
                           is_Returned (f y).
Proof.
  induction l as [|x l IH]; [done|].
  change (mapM f (x :: l)) with (y ← f x; k ← mapM f l; mret (y :: k)).
  outcome_unfold. destruct (f x) as [y|e'] eqn:Hx.
  - destruct (mapM f l) as [k|e'] eqn:Hl; [done|].
    intros ?; simplify_eq.
    destruct (IH eq_refl) as (i & z & Hi & Hz & Hbefore).
    exists (S i), z. split; [done|]. split; [done|].
    intros [|j] y' Hj Hy; simplify_eq/=; [by eexists|].
    apply (Hbefore j); [lia|done].
  - intros ?; simplify_eq. exists 0%nat, x.
    split; [done|]. split; [done|]. intros j y Hj. lia.
Qed.

Lemma mapM_ext_Forall {A B} (f g : A → Outcome B) (l : list A) :
  Forall (λ x, f x = g x) l → mapM f l = mapM g l.
Proof.
  induction 1 as [|x l Hx _ IH]; [done|].
  change (mapM f (x :: l)) with (y ← f x; k ← mapM f l; mret (y :: k)).
  change (mapM g (x :: l)) with (y ← g x; k ← mapM g l; mret (y :: k)).
  by rewrite Hx, IH.
Qed.


Lemma enumerate_lookup {A} (row : list A) (n : nat) (i : Z) (value : A) :
  enumerate row !! n = Some (i, value) ↔
  i = Z.of_nat n ∧ row !! n = Some value.
Proof.
  unfold enumerate. rewrite list_lookup_imap.
  destruct (row !! n) as [v|]; simpl; [|split; [done|by intros [_ ?]]].
  split.
  - intros Heq. injection Heq as <- <-. done.
  - intros [-> Heq]. injection Heq as ->. done.
Qed.

Section more_map_row_properties.
Context {Value : Type}.
Variable str : Value → string.
Variable to_string : FieldProcessor → Value → Outcome string.

(** [_get_map_row] returns exactly when no description of the table, at
    whatever index (one that no row reaches included), has a composite
    wrapping [None]; otherwise it raises the [AttributeError] of the
    missing [to_field_processor]. *)
Theorem _get_map_row_outcome (data : MetaCSVData) :
  match _get_map_row str to_string data with
  | Returned _ =>
      ∀ i d, field_description_by_index data !! i = Some d →
             wrapped_present d = true
  | Raised e =>
      e = AttributeError "to_field_processor"
      ∧ ∃ i d, field_description_by_index data !! i = Some d
               ∧ wrapped_present d = false
  end.
Proof.
  unfold _get_map_row.
  destruct (processors_of data) as [processors|e] eqn:Hps; simpl.
  - intros i d Hd.
    pose proof (processors_of_lookup data processors Hps i) as Hi.
    rewrite Hd in Hi. destruct Hi as (p & Hp & _).
    apply (to_field_processor_returns_iff d (null_value data)).
    by exists p.
  - unfold processors_of in Hps.
    destruct (mapM _ (map_to_list (field_description_by_index data)))
      as [items|e'] eqn:Hitems; [done|].
    outcome_unfold. simplify_eq.
    apply mapM_Raised in Hitems as (n & [i d] & Hn & Hraise & _).
    pose proof (to_field_processor_outcome_wrapped d (null_value data))
      as Hm.
    destruct (to_field_processor d (null_value data)) as [p|e'];
      [done|].
    simplify_eq. destruct Hm as [Hw ->]. split; [done|].
    exists i, d. split; [|done].
    apply elem_of_map_to_list, list_elem_of_lookup. by exists n.
Qed.

(** [map_row] uses the processors at the indices of the row only: two
    dictionaries that agree there map the row alike, whatever they hold
    at negative indices or past the end of the row. *)
Theorem map_row_local (processors processors' : gmap Z FieldProcessor)
    (row : list Value) :
  (∀ i : nat, (i < length row)%nat →
              processors !! Z.of_nat i = processors' !! Z.of_nat i) →
  map_row str to_string processors row
  = map_row str to_string processors' row.
Proof.
  intros Hagree. unfold map_row. apply mapM_ext_Forall.
  apply Forall_lookup. intros n [i value] Hn.
  apply enumerate_lookup in Hn as [-> Hn].
  rewrite Hagree; [done|]. by eapply lookup_lt_Some.
Qed.


End more_map_row_properties.

Lemma map_row_local_witness :
  (∀ i : nat, (i < length example_row)%nat →
     example_processors !! Z.of_nat i
     = (example_far_processors ∪ example_processors) !! Z.of_nat i)
  ∧ map_row example_str example_to_string example_processors example_row
    = map_row example_str example_to_string
        (example_far_processors ∪ example_processors) example_row.
Proof.
  assert (H : ∀ i : nat, (i < length example_row)%nat →
                example_processors !! Z.of_nat i
                = (example_far_processors ∪ example_processors)
                    !! Z.of_nat i).
  { intros [|[|[|i]]] Hi; [by vm_compute..|]. simpl in Hi. lia. }
  split; [exact H|].
  apply (map_row_local example_str example_to_string). exact H.
Defined.



(** ** The writer *)

Section MetaCSVWriter_properties.
Context {Value CsvWriter : Type}.
Variable str : Value → string.
Variable to_string : FieldProcessor → Value → Outcome string.
Variable csv_writerow : CsvWriter → list string → CsvWriter * Outcome unit.

(** A [MetaCSVWriter] whose [_map_row] comes from [_get_map_row] hands
    the underlying writer, for a row, one list of cells of the length of
    the row; when a cell cannot be formatted it hands it nothing, leaves
    it as it was and raises the error of the cell. [writeheader] hands
    the header as it is: the processors are not applied to it. *)
Theorem writerow_one_row (data : MetaCSVData)
    (f : list Value → Outcome (list string)) (w : CsvWriter)
    (row : list Value) (header : list string) :
  _get_map_row str to_string data = Returned f →
  match f row with
  | Returned cells =>
      length cells = length row
      ∧ writerow csv_writerow {| _writer := w; _map_row := f |} row
        = ({| _writer := (csv_writerow w cells).1; _map_row := f |},
           (csv_writerow w cells).2)
  | Raised e =>
      writerow csv_writerow {| _writer := w; _map_row := f |} row
      = ({| _writer := w; _map_row := f |}, Raised e)
  end
  ∧ writeheader csv_writerow {| _writer := w; _map_row := f |} header
    = ({| _writer := (csv_writerow w header).1; _map_row := f |},
       (csv_writerow w header).2).
Proof.
  unfold _get_map_row.
  destruct (processors_of data) as [processors|e] eqn:Hps; [|done].
  outcome_unfold. intros ?; simplify_eq.
  unfold writerow, writeheader; cbn [_writer _map_row].
  split; [|by destruct (csv_writerow w header)].
  destruct (map_row str to_string processors row) as [cells|e] eqn:Hcells;
    [|done].
  split; [|by destruct (csv_writerow w cells)].
  apply mapM_Returned, Forall2_length in Hcells.
  unfold enumerate in Hcells. by rewrite length_imap in Hcells.
Qed.
End MetaCSVWriter_properties.

Lemma writerow_one_row_witness :
  _get_map_row example_str example_strict_to_string example_data
  = Returned
      (map_row example_str example_strict_to_string example_processors)
  ∧ writerow example_csv_writerow
      {| _writer := [["a"; "b"; "c"]];
         _map_row := map_row example_str example_strict_to_string
                       example_processors |}
      ["1"; "bad"; "bad"]
    = ({| _writer := [["a"; "b"; "c"]];
          _map_row := map_row example_str example_strict_to_string
                        example_processors |},
       Raised (AttributeError "quantize"))
  ∧ writerow example_csv_writerow
      {| _writer := [["a"; "b"; "c"]];
         _map_row := map_row example_str example_strict_to_string
                       example_processors |}
      ["1"; "bad"; "3"]
    = ({| _writer := [["a"; "b"; "c"]; ["<1>"; "bad"; "<3>"]];
          _map_row := map_row example_str example_strict_to_string
                        example_processors |},
       Returned ()).
Proof.
  split; [by vm_compute|]. split.
  - apply (proj1 (writerow_one_row example_str example_strict_to_string
                    example_csv_writerow example_data _ [["a"; "b"; "c"]]
                    ["1"; "bad"; "bad"] [] ltac:(by vm_compute))).
  - apply (proj1 (writerow_one_row example_str example_strict_to_string
                    example_csv_writerow example_data _ [["a"; "b"; "c"]]
                    ["1"; "bad"; "3"] [] ltac:(by vm_compute))).
Defined.

(** [_get_encoding] replaces the encoding only when it is exactly
    "utf-8" and a byte order mark is asked for: every other encoding,
    another spelling of UTF-8 included, is returned as it is, and so is
    every encoding when no byte order mark is asked for. With a byte
    order mark the result is never "utf-8". *)
Theorem _get_encoding_cases (encoding : string) (bom : bool) :
  (encoding ≠ "utf-8" → _get_encoding encoding bom = encoding)
  ∧ _get_encoding encoding false = encoding
  ∧ _get_encoding encoding true ≠ "utf-8"
  ∧ (_get_encoding encoding bom = "utf-8-sig"
     ↔ encoding = "utf-8-sig" ∨ (encoding = "utf-8" ∧ bom = true)).
Proof.
  unfold _get_encoding. repeat split.
  - intros Hne. by rewrite bool_decide_eq_false_2.
  - by rewrite andb_false_r.
  - rewrite andb_true_r. case_bool_decide; [done|congruence].
  - case_bool_decide as He; destruct bom; simpl; subst; try naive_solver.
  - intros [->|[-> ->]]; done.
Qed.

Lemma _get_encoding_cases_witness :
  "UTF-8" ≠ "utf-8" ∧ _get_encoding "UTF-8" true = "UTF-8".
Proof.
  split; [done|].
  apply (proj1 (_get_encoding_cases "UTF-8" true)). done.
Defined.
